(** * Tensorforce: the DPG agent constructor and the StateValue signatures

    A shallow embedding of
      - [tensorforce/agents/dpg.py]
        ([DeterministicPolicyGradient.__init__]), and
      - [tensorforce/core/policies/state_value.py]
        ([StateValue.input_signature], [StateValue.output_signature]),
    with the properties of the specification proved about the embedding.

    Python values are a small inductive type; dictionaries keep their
    insertion order, so they are association lists.  The constructor runs in
    an exception monad over a state monad (ExtLib): a raised exception keeps
    the state reached so far, as in Python. *)

From Stdlib Require Import String List ZArith Bool Lia PrimFloat.
From ExtLib Require Import Structures.Monad Structures.MonadState
  Structures.MonadExc Data.Monads.StateMonad Data.Monads.EitherMonad.
Import ListNotations.
Import MonadNotation.
Local Open Scope string_scope.
Local Open Scope monad_scope.
#[local] Set Warnings "-inexact-float,-register-all".

(* ===================================================================== *)
(** ** Python values *)
(* ===================================================================== *)

Module Py.

(** The values the constructor's arguments range over.  A [dict] (and an
    [OrderedDict]) is its list of items in insertion order. *)
Inductive value : Type :=
| VNone
| VBool (b : bool)
| VInt (n : Z)
| VFloat (x : float)
| VStr (s : string)
| VList (items : list value)
| VDict (items : list (string * value)).

Definition items_t : Type := list (string * value).

(** [d.get(key)]: the first (and, in a well-formed dict, only) entry. *)
Fixpoint dict_get (d : items_t) (key : string) : option value :=
  match d with
  | [] => None
  | (k, v) :: rest => if String.eqb k key then Some v else dict_get rest key
  end.

(** [d[key] = v]: an existing key keeps its position, a new key goes last. *)
Fixpoint dict_set (d : items_t) (key : string) (v : value) : items_t :=
  match d with
  | [] => [(key, v)]
  | (k, w) :: rest =>
      if String.eqb k key then (k, v) :: rest else (k, w) :: dict_set rest key v
  end.

Definition keys (d : items_t) : list string := map fst d.

(** [key in d]. *)
Definition has_key (d : items_t) (key : string) : bool :=
  existsb (String.eqb key) (keys d).

(** Item lookup on a value that should be a dict; [None] on anything else. *)
Definition item (v : value) (key : string) : option value :=
  match v with
  | VDict d => dict_get d key
  | _ => None
  end.

(** [v is not None]. *)
Definition is_not_None (v : value) : bool :=
  match v with
  | VNone => false
  | _ => true
  end.

(** [v != s] for a string literal [s]: a value of another built-in type
    never compares equal to a [str]. *)
Definition ne_str (v : value) (s : string) : bool :=
  match v with
  | VStr t => negb (String.eqb t s)
  | _ => true
  end.

(** The exceptions of the two modules.  The class [TensorforceError] lives in
    [tensorforce/exception.py]; an exception is represented by the call that
    builds it: [TensorforceError(message=...)] and
    [TensorforceError.deprecated(name=..., argument=..., replacement=...)]. *)
Inductive exception : Type :=
| TensorforceError (message : string)
| TensorforceError_deprecated (name argument replacement : string)
| AttributeError (attribute : string)
| TypeError (message : string)
| OtherException (description : string).

End Py.
Import Py.

(* ===================================================================== *)
(** ** tensorforce/agents/dpg.py *)
(* ===================================================================== *)

Module DeterministicPolicyGradient.

(** The parameters of [__init__] once bound (lines 129-154). *)
Record Args : Type := mkArgs {
  (* Required *)
  states : value;
  actions : value;
  memory : value;
  batch_size : value;
  (* Environment *)
  max_episode_timesteps : value;
  (* Network *)
  network : value;
  use_beta_distribution : value;
  (* Optimization *)
  update_frequency : value;
  start_updating : value;
  learning_rate : value;
  (* Reward estimation *)
  horizon : value;
  discount : value;
  predict_terminal_values : value;
  (* Critic *)
  critic : value;
  critic_optimizer : value;
  (* Preprocessing *)
  preprocessing : value;
  (* Exploration *)
  exploration : value;
  variable_noise : value;
  (* Regularization *)
  l2_regularization : value;
  entropy_regularization : value;
  (* Parallel interactions *)
  parallel_interactions : value;
  (* Config, saver, summarizer, recorder *)
  config : value;
  saver : value;
  summarizer : value;
  recorder : value;
  (* Deprecated *)
  estimate_terminal : value;
  critic_network : value;
  kwargs : items_t
}.

(** The names of the required parameters (line 131). *)
Definition required_parameters : list string :=
  [ "states"; "actions"; "memory"; "batch_size" ].

(** The names of the optional parameters, in the order of the signature. *)
Definition optional_parameters : list string :=
  [ "max_episode_timesteps"; "network"; "use_beta_distribution";
    "update_frequency"; "start_updating"; "learning_rate";
    "horizon"; "discount"; "predict_terminal_values";
    "critic"; "critic_optimizer"; "preprocessing";
    "exploration"; "variable_noise";
    "l2_regularization"; "entropy_regularization";
    "parallel_interactions";
    "config"; "saver"; "summarizer"; "recorder";
    "estimate_terminal"; "critic_network" ].

(** A parameter passed by keyword, or its default when it is omitted. *)
Definition parameter (keywords : items_t) (name : string) (default : value)
  : value :=
  match dict_get keywords name with
  | Some v => v
  | None => default
  end.

(** The parameters of a call [DeterministicPolicyGradient(states, actions,
    memory, batch_size, **keywords)]: the four required ones, the optional
    ones passed by keyword or else at the defaults of lines 133-153, and the
    remaining keywords collected in [**kwargs]. *)
Definition parameters_of (states actions memory batch_size : value)
    (keywords : items_t) : Args :=
  {| states := states; actions := actions; memory := memory;
     batch_size := batch_size;
     max_episode_timesteps := parameter keywords "max_episode_timesteps" VNone;
     network := parameter keywords "network" (VStr "auto");
     use_beta_distribution :=
       parameter keywords "use_beta_distribution" (VBool true);
     update_frequency :=
       parameter keywords "update_frequency" (VStr "batch_size");
     start_updating := parameter keywords "start_updating" VNone;
     learning_rate := parameter keywords "learning_rate" (VFloat 1e-3);
     horizon := parameter keywords "horizon" (VInt 1);
     discount := parameter keywords "discount" (VFloat 0.99);
     predict_terminal_values :=
       parameter keywords "predict_terminal_values" (VBool false);
     critic := parameter keywords "critic" (VStr "auto");
     critic_optimizer := parameter keywords "critic_optimizer" (VFloat 1.0);
     preprocessing :=
       parameter keywords "preprocessing" (VStr "linear_normalization");
     exploration := parameter keywords "exploration" (VFloat 0.0);
     variable_noise := parameter keywords "variable_noise" (VFloat 0.0);
     l2_regularization := parameter keywords "l2_regularization" (VFloat 0.0);
     entropy_regularization :=
       parameter keywords "entropy_regularization" (VFloat 0.0);
     parallel_interactions := parameter keywords "parallel_interactions" (VInt 1);
     config := parameter keywords "config" VNone;
     saver := parameter keywords "saver" VNone;
     summarizer := parameter keywords "summarizer" VNone;
     recorder := parameter keywords "recorder" VNone;
     estimate_terminal := parameter keywords "estimate_terminal" VNone;
     critic_network := parameter keywords "critic_network" VNone;
     kwargs :=
       filter (fun kv => negb (existsb (String.eqb (fst kv)) optional_parameters))
              keywords |}.

(** Binding of the call, where [keywords] has each name once.  A keyword
    that names a parameter already passed by position, [self] or one of the
    four required ones, is a [TypeError]. *)
Definition bind_parameters (states actions memory batch_size : value)
    (keywords : items_t) : exception + Args :=
  if existsb (has_key keywords) ("self" :: required_parameters) then
    raise (TypeError "got multiple values for argument")
  else ret (parameters_of states actions memory batch_size keywords).

(** The object under construction: the attributes of [self] set so far, and
    the line numbers of [dpg.py] whose statement has been run, oldest
    first. *)
Record object : Type := mkObject {
  attributes : items_t;
  executed : list nat
}.

(** Computations that may raise and that act on [self]. *)
Definition M : Type -> Type := eitherT exception (state object).

Definition run {A : Type} (c : M A) (self : object)
  : (exception + A) * object :=
  runState (unEitherT c) self.

(** The statement that starts at [line] of the source file. *)
Definition at_line {A : Type} (line : nat) (c : M A) : M A :=
  self <- get ;;
  put {| attributes := attributes self;
         executed := (executed self ++ [line])%list |} ;;
  c.

(** [self.name = v]. *)
Definition setattr (name : string) (v : value) : M unit :=
  self <- get ;;
  put {| attributes := dict_set (attributes self) name v;
         executed := executed self |}.

(** The lines run between two states of the object. *)
Definition newly_executed (before after : object) : list nat :=
  skipn (length (executed before)) (executed after).

(** The local variables that lines 181-205 build for the parent
    constructor. *)
Record Specification : Type := mkSpecification {
  policy : value;
  memory_spec : value;
  update : value;
  optimizer : value;
  objective : value;
  reward_estimation : value;
  baseline : value;
  baseline_optimizer : value;
  baseline_objective : value
}.

Section Constructor.

(** [TensorforceAgent.__init__] is defined in [tensorforce/agents], outside
    the two files modelled here: it is any computation on [self], taking the
    keyword arguments of the call at lines 207-219. *)
Variable TensorforceAgent__init__ : items_t -> M unit.

(** Lines 156-163: the checks for deprecated argument names. *)
Definition deprecation_checks (a : Args) : M unit :=
  at_line 156
    (if is_not_None (estimate_terminal a) then
       at_line 157
         (raise (TensorforceError_deprecated
                   "DPG" "estimate_terminal" "predict_terminal_values"))
     else ret tt) ;;
  at_line 160
    (if is_not_None (critic_network a) then
       at_line 161
         (raise (TensorforceError_deprecated "DPG" "critic_network" "critic"))
     else ret tt).

(** Lines 165-179: the value stored in [self.spec]. *)
Definition spec_of (a : Args) : value :=
  VDict
    [ ("agent", VStr "dpg");
      ("states", states a); ("actions", actions a); ("memory", memory a);
      ("batch_size", batch_size a);
      ("max_episode_timesteps", max_episode_timesteps a);
      ("network", network a);
      ("use_beta_distribution", use_beta_distribution a);
      ("update_frequency", update_frequency a);
      ("start_updating", start_updating a);
      ("learning_rate", learning_rate a);
      ("horizon", horizon a); ("discount", discount a);
      ("predict_terminal_values", predict_terminal_values a);
      ("critic", critic a); ("critic_optimizer", critic_optimizer a);
      ("preprocessing", preprocessing a);
      ("exploration", exploration a); ("variable_noise", variable_noise a);
      ("l2_regularization", l2_regularization a);
      ("entropy_regularization", entropy_regularization a);
      ("parallel_interactions", parallel_interactions a);
      ("config", config a); ("saver", saver a);
      ("summarizer", summarizer a); ("recorder", recorder a) ].

(** Lines 165-205: the mapping from the flat arguments to [self.spec] and to
    the nested specifications.  The local [update] is a dict changed in place
    (lines 190, 192), with no other reference to it; line 186 rebinds the
    name [memory], here [memory_spec]. *)
Definition specification (a : Args) : M Specification :=
  at_line 165 (setattr "spec" (spec_of a)) ;;
  policy <- at_line 181
    (ret (VDict [ ("type", VStr "parametrized_distributions");
                  ("network", network a);
                  ("temperature", VFloat 0.0);
                  ("use_beta_distribution", use_beta_distribution a) ])) ;;
  memory <- at_line 186
    (ret (VDict [ ("type", VStr "replay"); ("capacity", memory a) ])) ;;
  update <- at_line 188
    (ret [ ("unit", VStr "timesteps"); ("batch_size", batch_size a) ]) ;;
  update <- at_line 189
    (if ne_str (update_frequency a) "batch_size" then
       at_line 190 (ret (dict_set update "frequency" (update_frequency a)))
     else ret update) ;;
  update <- at_line 191
    (if is_not_None (start_updating a) then
       at_line 192 (ret (dict_set update "start" (start_updating a)))
     else ret update) ;;
  optimizer <- at_line 194
    (ret (VDict [ ("type", VStr "adam");
                  ("learning_rate", learning_rate a) ])) ;;
  objective <- at_line 195 (ret (VStr "deterministic_policy_gradient")) ;;
  reward_estimation <- at_line 197
    (ret (VDict [ ("horizon", horizon a); ("discount", discount a);
                  ("predict_horizon_values", VStr "late");
                  ("estimate_advantage", VBool false);
                  ("predict_action_values", VBool true);
                  ("predict_terminal_values", predict_terminal_values a) ])) ;;
  baseline <- at_line 203
    (ret (VDict [ ("type", VStr "parametrized_distributions");
                  ("network", critic a) ])) ;;
  baseline_optimizer <- at_line 204 (ret (critic_optimizer a)) ;;
  baseline_objective <- at_line 205
    (ret (VDict [ ("type", VStr "value"); ("value", VStr "action") ])) ;;
  ret {| policy := policy; memory_spec := memory; update := VDict update;
         optimizer := optimizer; objective := objective;
         reward_estimation := reward_estimation; baseline := baseline;
         baseline_optimizer := baseline_optimizer;
         baseline_objective := baseline_objective |}.

(** Lines 208-218: the keyword arguments written out in the call of the
    parent constructor. *)
Definition parent_keywords (a : Args) (s : Specification) : items_t :=
  [ (* Agent *)
    ("states", states a); ("actions", actions a);
    ("max_episode_timesteps", max_episode_timesteps a);
    ("parallel_interactions", parallel_interactions a);
    ("config", config a); ("recorder", recorder a);
    (* Model *)
    ("preprocessing", preprocessing a); ("exploration", exploration a);
    ("variable_noise", variable_noise a);
    ("l2_regularization", l2_regularization a);
    ("saver", saver a); ("summarizer", summarizer a);
    (* TensorforceModel *)
    ("policy", policy s); ("memory", memory_spec s); ("update", update s);
    ("optimizer", optimizer s); ("objective", objective s);
    ("reward_estimation", reward_estimation s); ("baseline", baseline s);
    ("baseline_optimizer", baseline_optimizer s);
    ("baseline_objective", baseline_objective s);
    ("entropy_regularization", entropy_regularization a) ].

(** Lines 207-219: [super().__init__(..., **kwargs)].  A key of [**kwargs]
    that repeats a keyword written in the call is a [TypeError]. *)
Definition parent_call (a : Args) (s : Specification) : M unit :=
  at_line 207
    (let named := parent_keywords a s in
     if existsb (has_key named) (keys (kwargs a)) then
       raise (TypeError "got multiple values for keyword argument")
     else TensorforceAgent__init__ (named ++ kwargs a)%list).

(** Lines 156-219: what follows the first statement of the body. *)
Definition after_guard (a : Args) : M unit :=
  deprecation_checks a ;;
  s <- specification a ;;
  parent_call a s.

(** Lines 155-219: the body of [DeterministicPolicyGradient.__init__]. *)
Definition __init__ (a : Args) : M unit :=
  at_line 155 (raise (TensorforceError "Temporarily broken.") : M unit) ;;
  after_guard a.

End Constructor.

(** The schedule of updates that a model reads from an update
    specification: how many units make a batch, and every how many units
    an update happens. *)
Record UpdateSchedule : Type := mkUpdateSchedule {
  schedule_unit : value;
  schedule_batch_size : value;
  schedule_frequency : value
}.

(** Modelled from the spec: the reading of the update specification by the
    model that receives it ([TensorforceModel], in [tensorforce/core],
    outside the two files modelled here).  The specification has the update
    "defaulting to per-batch", and the docstring of the constructor
    (lines 76-78) gives [update_frequency] the default [batch_size]: an
    update specification without 'frequency' entry has the frequency of its
    'batch_size' entry, and 'unit' is the unit both are counted in. *)
Definition update_schedule (update : value) : option UpdateSchedule :=
  match item update "unit", item update "batch_size" with
  | Some unit, Some batch_size =>
      Some {| schedule_unit := unit;
              schedule_batch_size := batch_size;
              schedule_frequency :=
                match item update "frequency" with
                | Some frequency => frequency
                | None => batch_size
                end |}
  | _, _ => None
  end.

(** The two parameters under the comment [# Deprecated] (lines 152-153). *)
Definition deprecated_parameters : list string :=
  [ "estimate_terminal"; "critic_network" ].

(** The keywords of the parent call (lines 215-217) that are no parameter
    of [__init__]: their values are the locals built at lines 181-205. *)
Definition computed_keywords : list string :=
  [ "policy"; "update"; "optimizer"; "objective"; "reward_estimation";
    "baseline"; "baseline_optimizer"; "baseline_objective" ].

End DeterministicPolicyGradient.

(* ===================================================================== *)
(** ** tensorforce/core/policies/state_value.py *)
(* ===================================================================== *)

Module StateValue.

(** [TensorSpec(type=..., shape=...)]: the descriptor of one tensor. *)
Record TensorSpec : Type := mkTensorSpec {
  type : string;
  shape : list Z
}.

(** [TensorsSpec]: a nested dictionary of tensor descriptors, as held in
    [self.states_spec], [self.internals_spec] and [self.auxiliaries_spec]. *)
Inductive TensorsSpec : Type :=
| Tensor (spec : TensorSpec)
| Tensors (items : list (string * TensorsSpec)).

(** A tensor signature: type, shape and batching flag. *)
Record Signature : Type := mkSignature {
  sig_type : string;
  sig_shape : list Z;
  batched : bool
}.

(** [SignatureDict(...)]: named signatures, nested like the descriptors they
    come from. *)
Inductive signature_t : Type :=
| TensorSignature (sig : Signature)
| SignatureDict (items : list (string * signature_t)).

(** Modelled from the spec: [TensorSpec.signature(batched=...)] is defined in
    [tensorforce/core], outside the two files modelled here.  The
    specification describes a signature as a record of type, shape and
    batching flag, so the signature of a descriptor keeps its type and shape
    and records the flag. *)
Definition TensorSpec_signature (spec : TensorSpec) (batched : bool)
  : Signature :=
  {| sig_type := type spec; sig_shape := shape spec; batched := batched |}.

(** Modelled from the spec: [TensorsSpec.signature(batched=...)], also
    outside the two files, takes the signature of every descriptor of the
    nested dictionary and keeps the names. *)
Fixpoint TensorsSpec_signature (specs : TensorsSpec) (batched : bool)
  : signature_t :=
  match specs with
  | Tensor spec => TensorSignature (TensorSpec_signature spec batched)
  | Tensors items =>
      SignatureDict
        (map (fun kv : string * TensorsSpec =>
                let (k, v) := kv in (k, TensorsSpec_signature v batched))
             items)
  end.

(** Every tensor of a signature has batching flag [b]. *)
Fixpoint all_batched (b : bool) (s : signature_t) : bool :=
  match s with
  | TensorSignature sig => Bool.eqb (batched sig) b
  | SignatureDict items =>
      forallb (fun kv : string * signature_t =>
                 let (_, v) := kv in all_batched b v) items
  end.

(** The attributes of a [StateValue] object that the signatures read.
    [__init__] (lines 37-45) stores [states_spec], [auxiliaries_spec] and
    [actions_spec], each [None] by default; [internals_spec] is not assigned
    in this class, and is [None] here when the object has none. *)
Record object : Type := mkObject {
  states_spec : option TensorsSpec;
  auxiliaries_spec : option TensorsSpec;
  actions_spec : option TensorsSpec;
  internals_spec : option TensorsSpec
}.

(** [self.name.signature(batched=...)] for the attribute [name] of [self]:
    without a specification there is no [signature] to call. *)
Definition attribute_signature (name : string)
    (attribute : option TensorsSpec) (batched : bool)
  : exception + signature_t :=
  match attribute with
  | Some specs => ret (TensorsSpec_signature specs batched)
  | None => raise (AttributeError (name ++ ".signature"))
  end.

Section Signatures.

(** [Module.input_signature] and [Module.output_signature], the methods of
    the parent class, are defined in [tensorforce/core], outside the two
    files modelled here. *)
Variable Module_input_signature : object -> string -> exception + signature_t.
Variable Module_output_signature : object -> string -> exception + signature_t.

(** Lines 47-60.  The keyword arguments of [SignatureDict(...)] are
    evaluated in the order they are written. *)
Definition input_signature (self : object) (function : string)
  : exception + signature_t :=
  if String.eqb function "past_horizon" then
    ret (SignatureDict [])
  else if String.eqb function "state_value" then
    states <- attribute_signature "states_spec" (states_spec self) true ;;
    horizons <- ret (TensorSignature
                       (TensorSpec_signature
                          {| type := "int"; shape := [2%Z] |} true)) ;;
    internals <-
      attribute_signature "internals_spec" (internals_spec self) true ;;
    auxiliaries <-
      attribute_signature "auxiliaries_spec" (auxiliaries_spec self) true ;;
    ret (SignatureDict
           [ ("states", states); ("horizons", horizons);
             ("internals", internals); ("auxiliaries", auxiliaries) ])
  else
    Module_input_signature self function.

(** Lines 62-74. *)
Definition output_signature (self : object) (function : string)
  : exception + signature_t :=
  if String.eqb function "past_horizon" then
    ret (SignatureDict
           [ ("singleton",
              TensorSignature
                (TensorSpec_signature {| type := "int"; shape := [] |} false)) ])
  else if String.eqb function "state_value" then
    ret (SignatureDict
           [ ("singleton",
              TensorSignature
                (TensorSpec_signature {| type := "float"; shape := [] |} true)) ])
  else
    Module_output_signature self function.

End Signatures.

Section Construction.

(** [Module.__init__], the constructor of the parent class, is defined in
    [tensorforce/core], outside the two files modelled here: it acts on the
    object and may raise. *)
Variable Module__init__ : object -> value -> value -> value -> exception + object.

(** Lines 37-45: the parent constructor, then the three assignments. *)
Definition __init__ (self : object) (device l2_regularization name : value)
    (states_spec' auxiliaries_spec' actions_spec' : option TensorsSpec)
  : exception + object :=
  self <- Module__init__ self device l2_regularization name ;;
  ret {| states_spec := states_spec';
         auxiliaries_spec := auxiliaries_spec';
         actions_spec := actions_spec';
         internals_spec := internals_spec self |}.

End Construction.

(** Line 76: [@tf_function(num_args=4)]. *)
Definition state_value_num_args : nat := 4.

(** Line 77: the keyword-only parameters of [state_value]. *)
Definition state_value_parameters : list string :=
  [ "states"; "horizons"; "internals"; "auxiliaries" ].

(** Lines 77-78: the body of [state_value], for tensors of any type. *)
Definition state_value {T : Type} (self : object)
    (states horizons internals auxiliaries : T) : exception + T :=
  raise (OtherException "NotImplementedError").

End StateValue.

(* ===================================================================== *)
(** ** Properties of the DPG constructor *)
(* ===================================================================== *)

Module DPGProperties.
Import DeterministicPolicyGradient.

(** *** The monad on [self] *)

(** A statement first records its line, then runs. *)
Lemma run_at_line {A : Type} (line : nat) (c : M A) (self : object) :
  run (at_line line c) self =
  run c {| attributes := attributes self;
           executed := (executed self ++ [line])%list |}.
Proof. reflexivity. Qed.

(** An exception leaves the object as it is. *)
Lemma run_raise {A : Type} (e : exception) (self : object) :
  run (raise e : M A) self = (inl e, self).
Proof. reflexivity. Qed.

(** Sequencing: the second computation runs in the state the first one
    returns, and not at all after an exception. *)
Lemma run_bind {A B : Type} (c : M A) (k : A -> M B) (self : object) :
  run (x <- c ;; k x) self =
  match run c self with
  | (inl e, self') => (inl e, self')
  | (inr x, self') => run (k x) self'
  end.
Proof.
  unfold run. simpl.
  destruct (runState (unEitherT c) self) as [[e | x] self']; reflexivity.
Qed.

(** What follows a raising statement has no influence on the outcome. *)
Lemma run_raise_then {A B : Type} (line : nat) (e : exception)
    (k : A -> M B) (self : object) :
  run (x <- at_line line (raise e : M A) ;; k x) self =
  (inl e, {| attributes := attributes self;
             executed := (executed self ++ [line])%list |}).
Proof. rewrite run_bind, run_at_line, run_raise. reflexivity. Qed.

Lemma newly_executed_app (self : object) (attrs : items_t) (lines : list nat) :
  newly_executed self
    {| attributes := attrs; executed := (executed self ++ lines)%list |} = lines.
Proof.
  unfold newly_executed. simpl.
  rewrite skipn_app, skipn_all, Nat.sub_diag. reflexivity.
Qed.

(** *** The guard of line 155 *)

Section Guard.

Variable parent : items_t -> M unit.

(** The constructor stops at its first statement, whatever the arguments
    and the parent constructor. *)
Lemma run_init (a : Args) (self : object) :
  run (__init__ parent a) self =
  (inl (TensorforceError "Temporarily broken."),
   {| attributes := attributes self;
      executed := (executed self ++ [155])%list |}).
Proof. unfold __init__. apply run_raise_then. Qed.

(** C1.  Constructing the agent fails for every combination of arguments
    with the [TensorforceError] whose message is 'Temporarily broken.', and
    before any other effect: no attribute of the object is set or changed,
    and line 155 is the only statement run. *)
Theorem init_temporarily_broken (a : Args) (self : object) :
  fst (run (__init__ parent a) self) =
    inl (TensorforceError "Temporarily broken.") /\
  attributes (snd (run (__init__ parent a) self)) = attributes self /\
  newly_executed self (snd (run (__init__ parent a) self)) = [155].
Proof.
  rewrite run_init. simpl. repeat split.
  apply newly_executed_app.
Qed.

(** C3.  The deprecation checks cannot be reached: for every combination of
    arguments, also with [estimate_terminal] or [critic_network] given, the
    constructor raises 'Temporarily broken.' at line 155, the outcome is
    never a deprecation error, and no statement after line 155 is run. *)
Theorem deprecation_checks_unreachable (a : Args) (self : object) :
  fst (run (__init__ parent a) self) =
    inl (TensorforceError "Temporarily broken.") /\
  (forall name argument replacement,
     fst (run (__init__ parent a) self) <>
       inl (TensorforceError_deprecated name argument replacement)) /\
  (forall line,
     In line (newly_executed self (snd (run (__init__ parent a) self))) ->
     ~ 155 < line).
Proof.
  rewrite run_init. cbn [fst snd]. split; [reflexivity | split].
  - intros name argument replacement H. discriminate H.
  - intros line. rewrite newly_executed_app. intros [<- | []]. lia.
Qed.

(** *** The deprecation checks of lines 156-163, taken after the guard *)

Lemma run_after_guard_estimate_terminal (a : Args) (self : object) :
  is_not_None (estimate_terminal a) = true ->
  run (after_guard parent a) self =
  (inl (TensorforceError_deprecated
          "DPG" "estimate_terminal" "predict_terminal_values"),
   {| attributes := attributes self;
      executed := (executed self ++ [156; 157])%list |}).
Proof.
  intros H. unfold after_guard, deprecation_checks. rewrite H.
  rewrite !run_bind, !run_at_line, run_raise. cbn [executed attributes].
  rewrite <- app_assoc. reflexivity.
Qed.

Lemma run_after_guard_critic_network (a : Args) (self : object) :
  is_not_None (estimate_terminal a) = false ->
  is_not_None (critic_network a) = true ->
  run (after_guard parent a) self =
  (inl (TensorforceError_deprecated "DPG" "critic_network" "critic"),
   {| attributes := attributes self;
      executed := (executed self ++ [156; 160; 161])%list |}).
Proof.
  intros H1 H2. unfold after_guard, deprecation_checks. rewrite H1, H2.
  rewrite !run_bind, !run_at_line. cbn. rewrite <- !app_assoc. reflexivity.
Qed.

(** C2, as amended.  When a deprecated argument is supplied, construction
    fails before any other side effect, with the 'Temporarily broken.' error
    of line 155.  The checks of lines 156-163, run from after that line, fail
    with the deprecation error that names the deprecated argument and its
    replacement ([estimate_terminal] is tested first), again without setting
    any attribute. *)
Theorem deprecated_argument_fails (a : Args) (self : object) :
  is_not_None (estimate_terminal a) = true \/
  is_not_None (critic_network a) = true ->
  (fst (run (__init__ parent a) self) =
     inl (TensorforceError "Temporarily broken.") /\
   attributes (snd (run (__init__ parent a) self)) = attributes self /\
   newly_executed self (snd (run (__init__ parent a) self)) = [155]) /\
  (fst (run (after_guard parent a) self) =
     inl (if is_not_None (estimate_terminal a)
          then TensorforceError_deprecated
                 "DPG" "estimate_terminal" "predict_terminal_values"
          else TensorforceError_deprecated "DPG" "critic_network" "critic") /\
   attributes (snd (run (after_guard parent a) self)) = attributes self).
Proof.
  intros H. split.
  - rewrite run_init. cbn [fst snd attributes].
    rewrite newly_executed_app. auto.
  - destruct (is_not_None (estimate_terminal a)) eqn:He.
    + rewrite run_after_guard_estimate_terminal by exact He. auto.
    + destruct H as [H | H]; [discriminate H |].
      rewrite run_after_guard_critic_network by assumption. auto.
Qed.

End Guard.

(** Witness of C2 (amended): [estimate_terminal=True]. *)
Lemma deprecated_argument_fails_witness :
  let a := parameters_of (VStr "states") (VStr "actions") (VInt 1000)
             (VInt 32) [("estimate_terminal", VBool true)] in
  let self := {| attributes := []; executed := [] |} in
  let parent := fun _ : items_t => (ret tt : M unit) in
  (is_not_None (estimate_terminal a) = true \/
   is_not_None (critic_network a) = true) /\
  (fst (run (__init__ parent a) self) =
     inl (TensorforceError "Temporarily broken.") /\
   attributes (snd (run (__init__ parent a) self)) = attributes self /\
   newly_executed self (snd (run (__init__ parent a) self)) = [155]) /\
  (fst (run (after_guard parent a) self) =
     inl (TensorforceError_deprecated
            "DPG" "estimate_terminal" "predict_terminal_values") /\
   attributes (snd (run (after_guard parent a) self)) = attributes self).
Proof.
  intros a self parent.
  assert (H : is_not_None (estimate_terminal a) = true \/
              is_not_None (critic_network a) = true) by (left; reflexivity).
  split; [exact H |].
  exact (deprecated_argument_fails parent a self H).
Defined.

(** C2, as stated, fails: with [estimate_terminal=True] the constructor
    raises 'Temporarily broken.', which is not a deprecation error. *)
Lemma deprecated_argument_counterexample :
  let a := parameters_of (VStr "states") (VStr "actions") (VInt 1000)
             (VInt 32) [("estimate_terminal", VBool true)] in
  let self := {| attributes := []; executed := [] |} in
  let parent := fun _ : items_t => (ret tt : M unit) in
  is_not_None (estimate_terminal a) = true /\
  run (__init__ parent a) self =
    (inl (TensorforceError "Temporarily broken."),
     {| attributes := []; executed := [155] |}) /\
  fst (run (__init__ parent a) self) <>
    inl (TensorforceError_deprecated
           "DPG" "estimate_terminal" "predict_terminal_values").
Proof.
  cbv zeta. split; [reflexivity | split; [reflexivity |]].
  intros H. vm_compute in H. discriminate H.
Qed.

(** *** The mapping of lines 165-205 *)

(** An omitted keyword leaves the parameter at its default. *)
Lemma parameter_omitted (keywords : items_t) (name : string) (default : value) :
  dict_get keywords name = None -> parameter keywords name default = default.
Proof. unfold parameter. intros ->. reflexivity. Qed.

(** A call that binds has the parameters of [parameters_of]. *)
Lemma bind_parameters_inr (states actions memory batch_size : value)
    (keywords : items_t) (a : Args) :
  bind_parameters states actions memory batch_size keywords = inr a ->
  a = parameters_of states actions memory batch_size keywords.
Proof.
  unfold bind_parameters.
  destruct (existsb (has_key keywords) ("self" :: required_parameters)); cbn.
  - discriminate.
  - intros H. injection H as <-. reflexivity.
Qed.

(** A call whose keywords avoid the names passed by position binds. *)
Lemma bind_parameters_total (states actions memory batch_size : value)
    (keywords : items_t) :
  existsb (has_key keywords) ("self" :: required_parameters) = false ->
  bind_parameters states actions memory batch_size keywords =
  inr (parameters_of states actions memory batch_size keywords).
Proof. unfold bind_parameters. intros ->. reflexivity. Qed.

(** With an explicit [update_frequency] other than 'batch_size', the update
    specification has it as its 'frequency'. *)
Lemma update_explicit_frequency (a : Args) (self : object) :
  ne_str (update_frequency a) "batch_size" = true ->
  exists s : Specification,
    fst (run (specification a) self) = inr s /\
    item (update s) "frequency" = Some (update_frequency a).
Proof.
  intros H. unfold specification. rewrite H.
  destruct (is_not_None (start_updating a)); cbn;
    eexists; (split; [reflexivity |]); reflexivity.
Qed.

(** Without the guard and without deprecated arguments, the body runs the
    two checks, the mapping and the call of the parent constructor. *)
Example after_guard_runs_mapping :
  let a := parameters_of (VStr "states") (VStr "actions") (VInt 1000)
             (VInt 32) [("update_frequency", VInt 4); ("seed", VInt 7)] in
  let self := {| attributes := []; executed := [] |} in
  let parent := fun keywords : items_t => setattr "parent" (VDict keywords) in
  let self' := snd (run (after_guard parent a) self) in
  fst (run (after_guard parent a) self) = inr tt /\
  executed self' =
    [156; 160; 165; 181; 186; 188; 189; 190; 191; 194; 195; 197; 203; 204;
     205; 207] /\
  keys (attributes self') = ["spec"; "parent"] /\
  match dict_get (attributes self') "parent" with
  | Some received =>
      item received "update" =
        Some (VDict [ ("unit", VStr "timesteps"); ("batch_size", VInt 32);
                      ("frequency", VInt 4) ]) /\
      item received "seed" = Some (VInt 7)
  | None => False
  end.
Proof. cbv zeta. repeat split. Qed.

(** Runs the mapping symbolically: one case for each outcome of the tests of
    lines 189 and 191. *)
Ltac run_specification a :=
  unfold specification;
  destruct (ne_str (update_frequency a) "batch_size") eqn:?;
  destruct (is_not_None (start_updating a)) eqn:?;
  cbn.

(** The mapping returns for every argument record and every object, and
    its only effect on the attributes is [self.spec]. *)
Lemma specification_returns (a : Args) (self : object) :
  exists (s : Specification) (lines : list nat),
    run (specification a) self =
    (inr s, {| attributes := dict_set (attributes self) "spec" (spec_of a);
               executed := (executed self ++ lines)%list |}).
Proof.
  run_specification a; eexists; eexists;
    rewrite <- !app_assoc; cbn; reflexivity.
Qed.

(** C4.  With [update_frequency] at its default ['batch_size'], the update
    specification has no 'frequency' entry, so that the model reading it
    updates with a frequency equal to the batch size: one update per batch.
    Batch size and frequency are counted in the one unit of the
    specification, 'timesteps', and the batch size is the [batch_size]
    argument. *)
Theorem update_default_frequency (a : Args) (self : object) :
  update_frequency a = VStr "batch_size" ->
  exists s : Specification,
    fst (run (specification a) self) = inr s /\
    item (update s) "frequency" = None /\
    item (update s) "unit" = Some (VStr "timesteps") /\
    item (update s) "batch_size" = Some (batch_size a) /\
    update_schedule (update s) =
      Some {| schedule_unit := VStr "timesteps";
              schedule_batch_size := batch_size a;
              schedule_frequency := batch_size a |}.
Proof.
  intros H.
  assert (Hne : ne_str (update_frequency a) "batch_size" = false)
    by (rewrite H; reflexivity).
  unfold specification. rewrite Hne.
  destruct (is_not_None (start_updating a)); cbn;
    eexists; (split; [reflexivity |]); cbn; auto.
Qed.

(** Witness of C4: a call that passes no keyword at all. *)
Lemma update_default_frequency_witness :
  let a := parameters_of (VStr "states") (VStr "actions") (VInt 1000)
             (VInt 32) [] in
  let self := {| attributes := []; executed := [] |} in
  update_frequency a = VStr "batch_size" /\
  exists s : Specification,
    fst (run (specification a) self) = inr s /\
    item (update s) "frequency" = None /\
    item (update s) "unit" = Some (VStr "timesteps") /\
    item (update s) "batch_size" = Some (VInt 32) /\
    update_schedule (update s) =
      Some {| schedule_unit := VStr "timesteps";
              schedule_batch_size := VInt 32;
              schedule_frequency := VInt 32 |}.
Proof.
  intros a self.
  assert (H : update_frequency a = VStr "batch_size") by reflexivity.
  split; [exact H |].
  exact (update_default_frequency a self H).
Defined.

(** C5.  For every combination of arguments the optimizer specification has
    type 'adam' and the objective is 'deterministic_policy_gradient'. *)
Theorem optimizer_and_objective_fixed (a : Args) (self : object) :
  exists s : Specification,
    fst (run (specification a) self) = inr s /\
    item (optimizer s) "type" = Some (VStr "adam") /\
    objective s = VStr "deterministic_policy_gradient".
Proof.
  run_specification a; eexists; (split; [reflexivity |]); cbn; auto.
Qed.

(** C6.  The reward-estimation specification carries [horizon], [discount]
    and [predict_terminal_values] as they were passed, next to
    [predict_horizon_values='late'], [estimate_advantage=False] and
    [predict_action_values=True]. *)
Theorem reward_estimation_copied (a : Args) (self : object) :
  exists s : Specification,
    fst (run (specification a) self) = inr s /\
    reward_estimation s =
      VDict [ ("horizon", horizon a); ("discount", discount a);
              ("predict_horizon_values", VStr "late");
              ("estimate_advantage", VBool false);
              ("predict_action_values", VBool true);
              ("predict_terminal_values", predict_terminal_values a) ].
Proof.
  run_specification a; eexists; (split; reflexivity).
Qed.

(** C7.  The two documented defaults hold, each on its own.  A call that
    omits [learning_rate], whatever else it passes, binds it to 1e-3, and
    1e-3 is the learning rate of the optimizer specification.  A call that
    omits [discount], whatever else it passes, binds it to 0.99, and 0.99 is
    the discount of the reward-estimation specification. *)
Theorem documented_defaults
    (states actions memory batch_size : value) (keywords : items_t)
    (a : Args) (self : object) :
  bind_parameters states actions memory batch_size keywords = inr a ->
  (dict_get keywords "learning_rate" = None ->
   learning_rate a = VFloat 1e-3 /\
   exists s : Specification,
     fst (run (specification a) self) = inr s /\
     item (optimizer s) "learning_rate" = Some (VFloat 1e-3)) /\
  (dict_get keywords "discount" = None ->
   discount a = VFloat 0.99 /\
   exists s : Specification,
     fst (run (specification a) self) = inr s /\
     item (reward_estimation s) "discount" = Some (VFloat 0.99)).
Proof.
  intros Hbind.
  apply bind_parameters_inr in Hbind. subst a.
  set (a := parameters_of states actions memory batch_size keywords).
  split; intros Homitted.
  - assert (Hlr : learning_rate a = VFloat 1e-3)
      by (apply parameter_omitted; exact Homitted).
    split; [exact Hlr |]. rewrite <- Hlr.
    run_specification a; eexists; (split; reflexivity).
  - assert (Hdi : discount a = VFloat 0.99)
      by (apply parameter_omitted; exact Homitted).
    split; [exact Hdi |]. rewrite <- Hdi.
    run_specification a; eexists; (split; reflexivity).
Qed.

(** Witness of C7: one call that passes [discount] and omits
    [learning_rate], and one that passes [learning_rate] and omits
    [discount]. *)
Lemma documented_defaults_witness :
  let keywords1 := [("discount", VFloat 0.5)] in
  let keywords2 := [("learning_rate", VFloat 0.01)] in
  let a1 := parameters_of (VStr "states") (VStr "actions") (VInt 1000)
              (VInt 32) keywords1 in
  let a2 := parameters_of (VStr "states") (VStr "actions") (VInt 1000)
              (VInt 32) keywords2 in
  let self := {| attributes := []; executed := [] |} in
  (bind_parameters (VStr "states") (VStr "actions") (VInt 1000) (VInt 32)
     keywords1 = inr a1 /\
   dict_get keywords1 "learning_rate" = None /\
   discount a1 = VFloat 0.5 /\
   learning_rate a1 = VFloat 1e-3 /\
   exists s : Specification,
     fst (run (specification a1) self) = inr s /\
     item (optimizer s) "learning_rate" = Some (VFloat 1e-3)) /\
  (bind_parameters (VStr "states") (VStr "actions") (VInt 1000) (VInt 32)
     keywords2 = inr a2 /\
   dict_get keywords2 "discount" = None /\
   learning_rate a2 = VFloat 0.01 /\
   discount a2 = VFloat 0.99 /\
   exists s : Specification,
     fst (run (specification a2) self) = inr s /\
     item (reward_estimation s) "discount" = Some (VFloat 0.99)).
Proof.
  intros keywords1 keywords2 a1 a2 self.
  split.
  - split; [reflexivity | split; [reflexivity | split; [reflexivity |]]].
    exact (proj1 (documented_defaults (VStr "states") (VStr "actions")
                    (VInt 1000) (VInt 32) keywords1 a1 self eq_refl)
                 eq_refl).
  - split; [reflexivity | split; [reflexivity | split; [reflexivity |]]].
    exact (proj2 (documented_defaults (VStr "states") (VStr "actions")
                    (VInt 1000) (VInt 32) keywords2 a2 self eq_refl)
                 eq_refl).
Defined.

(** C10, as amended.  The mapping of lines 165-205, taken on its own, is
    total and deterministic: from any object it returns the nested
    specifications without raising, and two runs with the same arguments,
    from whatever objects, return the same nested specifications and store
    the same [self.spec].  A call of [__init__] does not perform it: it
    raises 'Temporarily broken.' first and leaves [self.spec] as it was. *)
Theorem specification_total_deterministic (parent : items_t -> M unit)
    (a : Args) (self1 self2 : object) :
  (exists s : Specification,
     fst (run (specification a) self1) = inr s /\
     fst (run (specification a) self2) = inr s /\
     dict_get (attributes (snd (run (specification a) self1))) "spec" =
       Some (spec_of a) /\
     dict_get (attributes (snd (run (specification a) self2))) "spec" =
       Some (spec_of a)) /\
  fst (run (__init__ parent a) self1) =
    inl (TensorforceError "Temporarily broken.") /\
  dict_get (attributes (snd (run (__init__ parent a) self1))) "spec" =
    dict_get (attributes self1) "spec".
Proof.
  split; [| rewrite run_init; split; reflexivity].
  assert (Hget : forall d v, dict_get (dict_set d "spec" v) "spec" = Some v).
  { induction d as [| [k w] d IH]; intros v; cbn.
    - reflexivity.
    - destruct (String.eqb k "spec") eqn:E; cbn; rewrite E; auto. }
  run_specification a; eexists; rewrite !Hget; repeat split.
Qed.

(** C10, as stated, fails: a call of [__init__] with the documented
    defaults produces no result and no [self.spec], and never runs line
    165, where the mapping starts. *)
Lemma mapping_by_init_counterexample :
  let a := parameters_of (VStr "states") (VStr "actions") (VInt 1000)
             (VInt 32) [] in
  let self := {| attributes := []; executed := [] |} in
  let parent := fun _ : items_t => (ret tt : M unit) in
  fst (run (__init__ parent a) self) =
    inl (TensorforceError "Temporarily broken.") /\
  fst (run (__init__ parent a) self) <> inr tt /\
  dict_get (attributes (snd (run (__init__ parent a) self))) "spec" = None /\
  ~ In 165 (executed (snd (run (__init__ parent a) self))).
Proof.
  cbv zeta. split; [reflexivity | split; [| split; [reflexivity |]]].
  - intros H. vm_compute in H. discriminate H.
  - vm_compute. intros [H | []]. discriminate H.
Qed.

End DPGProperties.

(* ===================================================================== *)
(** ** Properties of the StateValue signatures *)
(* ===================================================================== *)

Module StateValueProperties.
Import StateValue.

(** The signature of a nested descriptor carries the requested batching flag
    on every tensor. *)
Lemma signature_all_batched (b : bool) :
  forall specs : TensorsSpec,
    all_batched b (TensorsSpec_signature specs b) = true.
Proof.
  fix IH 1. intros [spec | items].
  - cbn. apply Bool.eqb_reflx.
  - cbn. induction items as [| [k v] items IHitems]; cbn.
    + reflexivity.
    + rewrite IH, IHitems. reflexivity.
Qed.

(** The signature of a nested descriptor has the names of the descriptor, in
    the same order. *)
Lemma signature_names (b : bool) (items : list (string * TensorsSpec)) :
  exists sigs : list (string * signature_t),
    TensorsSpec_signature (Tensors items) b = SignatureDict sigs /\
    map fst sigs = map fst items.
Proof.
  eexists. split; [reflexivity |].
  rewrite map_map. apply map_ext. intros [k v]. reflexivity.
Qed.

Section Contract.

Variable Module_input_signature : object -> string -> exception + signature_t.
Variable Module_output_signature : object -> string -> exception + signature_t.

(** The state specification is read first: without it the input signature
    of [state_value] cannot be built. *)
Lemma input_signature_needs_states (self : object) :
  states_spec self = None ->
  input_signature Module_input_signature self "state_value" =
    inl (AttributeError "states_spec.signature").
Proof. intros H. unfold StateValue.input_signature. rewrite H. reflexivity. Qed.

(** C8.  For an object with state, internals and auxiliaries
    specifications, the input signature of [state_value] is the batched
    signature of the states, a batched int tensor of shape (2,) for the
    horizons, and the batched signatures of the internals and of the
    auxiliaries, in this order; every tensor in it is batched.  The output
    signature is a single batched float tensor of shape (). *)
Theorem state_value_contract (self : object)
    (states internals auxiliaries : TensorsSpec) :
  states_spec self = Some states ->
  internals_spec self = Some internals ->
  auxiliaries_spec self = Some auxiliaries ->
  input_signature Module_input_signature self "state_value" =
    inr (SignatureDict
           [ ("states", TensorsSpec_signature states true);
             ("horizons",
              TensorSignature
                {| sig_type := "int"; sig_shape := [2%Z]; batched := true |});
             ("internals", TensorsSpec_signature internals true);
             ("auxiliaries", TensorsSpec_signature auxiliaries true) ]) /\
  (forall sig : signature_t,
     input_signature Module_input_signature self "state_value" = inr sig ->
     all_batched true sig = true) /\
  output_signature Module_output_signature self "state_value" =
    inr (SignatureDict
           [ ("singleton",
              TensorSignature
                {| sig_type := "float"; sig_shape := []; batched := true |}) ]).
Proof.
  intros Hs Hi Ha.
  assert (Hin : input_signature Module_input_signature self "state_value" =
    inr (SignatureDict
           [ ("states", TensorsSpec_signature states true);
             ("horizons",
              TensorSignature
                {| sig_type := "int"; sig_shape := [2%Z]; batched := true |});
             ("internals", TensorsSpec_signature internals true);
             ("auxiliaries", TensorsSpec_signature auxiliaries true) ])).
  { unfold StateValue.input_signature. rewrite Hs, Hi, Ha. reflexivity. }
  split; [exact Hin | split; [| reflexivity]].
  intros sig Hsig. rewrite Hin in Hsig. injection Hsig as <-.
  cbn [all_batched forallb]. rewrite !signature_all_batched. reflexivity.
Qed.

(** C9.  The input signature of [past_horizon] is empty, and its output
    signature is a single int tensor of shape () that is not batched. *)
Theorem past_horizon_contract (self : object) :
  input_signature Module_input_signature self "past_horizon" = inr (SignatureDict []) /\
  output_signature Module_output_signature self "past_horizon" =
    inr (SignatureDict
           [ ("singleton",
              TensorSignature
                {| sig_type := "int"; sig_shape := []; batched := false |}) ]).
Proof. split; reflexivity. Qed.

End Contract.

(** Witness of C8: one float state of shape (4,), no internals, one
    boolean action mask. *)
Lemma state_value_contract_witness :
  let states :=
    Tensors [("state", Tensor {| type := "float"; shape := [4%Z] |})] in
  let internals := Tensors [] in
  let auxiliaries :=
    Tensors [("action",
              Tensors [("mask", Tensor {| type := "bool"; shape := [3%Z] |})])] in
  let self := {| states_spec := Some states;
                 auxiliaries_spec := Some auxiliaries;
                 actions_spec := None;
                 internals_spec := Some internals |} in
  let parent := fun (_ : object) (_ : string) =>
    (inl (OtherException "NotImplementedError") : exception + signature_t) in
  (states_spec self = Some states /\
   internals_spec self = Some internals /\
   auxiliaries_spec self = Some auxiliaries) /\
  input_signature parent self "state_value" =
    inr (SignatureDict
           [ ("states",
              SignatureDict
                [("state",
                  TensorSignature
                    {| sig_type := "float"; sig_shape := [4%Z];
                       batched := true |})]);
             ("horizons",
              TensorSignature
                {| sig_type := "int"; sig_shape := [2%Z]; batched := true |});
             ("internals", SignatureDict []);
             ("auxiliaries",
              SignatureDict
                [("action",
                  SignatureDict
                    [("mask",
                      TensorSignature
                        {| sig_type := "bool"; sig_shape := [3%Z];
                           batched := true |})])]) ]) /\
  output_signature parent self "state_value" =
    inr (SignatureDict
           [ ("singleton",
              TensorSignature
                {| sig_type := "float"; sig_shape := []; batched := true |}) ]).
Proof.
  intros states internals auxiliaries self parent.
  destruct (state_value_contract parent parent self states internals
              auxiliaries eq_refl eq_refl eq_refl) as [Hin [_ Hout]].
  split; [repeat split | split; [exact Hin | exact Hout]].
Defined.

End StateValueProperties.

(* ===================================================================== *)
(** ** Further behaviour of the DPG constructor body *)
(* ===================================================================== *)

Module DPGBehaviour.
Import DeterministicPolicyGradient.
Import DPGProperties.

(** *** Dictionaries *)

Lemma dict_get_set_same (d : items_t) (key : string) (v : value) :
  dict_get (dict_set d key v) key = Some v.
Proof.
  induction d as [| [k w] d IH]; cbn.
  - rewrite String.eqb_refl. reflexivity.
  - destruct (String.eqb k key) eqn:E; cbn; rewrite E; auto.
Qed.

Lemma dict_get_set_other (d : items_t) (key other : string) (v : value) :
  other <> key ->
  dict_get (dict_set d key v) other = dict_get d other.
Proof.
  intros Hne. induction d as [| [k w] d IH]; cbn.
  - destruct (String.eqb_spec key other) as [-> | _];
      [contradiction | reflexivity].
  - destruct (String.eqb_spec k key) as [-> | Hk]; cbn.
    + destruct (String.eqb_spec key other) as [-> | _];
        [contradiction | reflexivity].
    + rewrite IH. reflexivity.
Qed.

Lemma dict_get_app (d1 d2 : items_t) (key : string) :
  dict_get (d1 ++ d2)%list key =
  match dict_get d1 key with
  | Some v => Some v
  | None => dict_get d2 key
  end.
Proof.
  induction d1 as [| [k w] d1 IH]; cbn.
  - reflexivity.
  - destruct (String.eqb k key); auto.
Qed.

(** Filtering a dictionary by key keeps the entries of the keys that pass
    and hides the others. *)
Lemma dict_get_filter (q : string -> bool) (d : items_t) (key : string) :
  dict_get (filter (fun kv => q (fst kv)) d) key =
  if q key then dict_get d key else None.
Proof.
  induction d as [| [k w] d IH]; cbn.
  - destruct (q key); reflexivity.
  - destruct (q k) eqn:Eq; cbn.
    + destruct (String.eqb_spec k key) as [-> | _].
      * rewrite Eq. reflexivity.
      * exact IH.
    + destruct (String.eqb_spec k key) as [-> | _].
      * rewrite IH, Eq. reflexivity.
      * exact IH.
Qed.

Lemma has_key_get (d : items_t) (key : string) :
  has_key d key = true <-> dict_get d key <> None.
Proof.
  unfold has_key, keys. induction d as [| [k w] d IH]; cbn.
  - split; [discriminate | intros H; contradiction H; reflexivity].
  - rewrite String.eqb_sym.
    destruct (String.eqb k key); cbn.
    + split; [discriminate | reflexivity].
    + exact IH.
Qed.

Lemma has_key_false (d : items_t) (key : string) :
  has_key d key = false <-> dict_get d key = None.
Proof.
  rewrite <- Bool.not_true_iff_false, has_key_get.
  destruct (dict_get d key) as [v |]; split; intros H.
  - exfalso. apply H. discriminate.
  - discriminate H.
  - reflexivity.
  - intros F. apply F. reflexivity.
Qed.

Lemma has_key_In (d : items_t) (key : string) (v : value) :
  In (key, v) d -> has_key d key = true.
Proof.
  intros H. unfold has_key, keys. apply existsb_exists.
  exists key. split; [| apply String.eqb_refl].
  apply in_map_iff. exists (key, v). auto.
Qed.

Lemma has_key_In_inv (d : items_t) (key : string) :
  has_key d key = true -> exists v, In (key, v) d.
Proof.
  unfold has_key, keys. intros H.
  apply existsb_exists in H as (k & Hin & Hk).
  apply String.eqb_eq in Hk. subst k.
  apply in_map_iff in Hin as ([k v] & Hfst & Hin). cbn in Hfst. subst k.
  exists v. exact Hin.
Qed.

(** *** The deprecation checks of lines 156-163 *)

(** The three ways through the checks. *)
Lemma run_deprecation_checks (a : Args) (self : object) :
  run (deprecation_checks a) self =
  if is_not_None (estimate_terminal a) then
    (inl (TensorforceError_deprecated
            "DPG" "estimate_terminal" "predict_terminal_values"),
     {| attributes := attributes self;
        executed := (executed self ++ [156; 157])%list |})
  else if is_not_None (critic_network a) then
    (inl (TensorforceError_deprecated "DPG" "critic_network" "critic"),
     {| attributes := attributes self;
        executed := (executed self ++ [156; 160; 161])%list |})
  else
    (inr tt,
     {| attributes := attributes self;
        executed := (executed self ++ [156; 160])%list |}).
Proof.
  unfold deprecation_checks.
  destruct (is_not_None (estimate_terminal a));
    [| destruct (is_not_None (critic_network a))];
    rewrite !run_bind, !run_at_line; cbn; rewrite <- !app_assoc; reflexivity.
Qed.

(** X1.  The deprecation checks raise exactly when one of the two
    deprecated arguments is not [None], whatever its value otherwise, and
    they never change an attribute of the object. *)
Theorem deprecation_checks_raise_iff (a : Args) (self : object) :
  ((exists e, fst (run (deprecation_checks a) self) = inl e) <->
   is_not_None (estimate_terminal a) || is_not_None (critic_network a) = true) /\
  attributes (snd (run (deprecation_checks a) self)) = attributes self.
Proof.
  rewrite run_deprecation_checks.
  destruct (is_not_None (estimate_terminal a));
    [| destruct (is_not_None (critic_network a))]; cbn; split;
    try reflexivity; split; intros H;
    try reflexivity; try (eexists; reflexivity).
  - destruct H as [e H]. discriminate H.
  - discriminate H.
Qed.

(** [estimate_terminal=False] is still a deprecated use. *)
Example estimate_terminal_False_raises :
  let a := parameters_of (VStr "states") (VStr "actions") (VInt 1000)
             (VInt 32) [("estimate_terminal", VBool false)] in
  fst (run (deprecation_checks a) {| attributes := []; executed := [] |}) =
  inl (TensorforceError_deprecated
         "DPG" "estimate_terminal" "predict_terminal_values").
Proof. reflexivity. Qed.

(** *** From the checks to the parent constructor *)

(** The nested specifications do not depend on the object. *)
Lemma specification_result (a : Args) (self1 self2 : object) :
  fst (run (specification a) self1) = fst (run (specification a) self2).
Proof. run_specification a; reflexivity. Qed.

(** The names written in the parent call do not depend on the values. *)
Lemma parent_keywords_names (a : Args) (s : Specification) :
  keys (parent_keywords a s) =
  [ "states"; "actions"; "max_episode_timesteps"; "parallel_interactions";
    "config"; "recorder"; "preprocessing"; "exploration"; "variable_noise";
    "l2_regularization"; "saver"; "summarizer"; "policy"; "memory"; "update";
    "optimizer"; "objective"; "reward_estimation"; "baseline";
    "baseline_optimizer"; "baseline_objective"; "entropy_regularization" ].
Proof. reflexivity. Qed.

(** What follows the guard, for arguments without a deprecated one: the
    mapping runs, then the parent call either rejects a repeated keyword or
    enters the parent constructor, with [self.spec] already stored. *)
Lemma run_after_guard (parent : items_t -> M unit) (a : Args)
    (self : object) :
  is_not_None (estimate_terminal a) = false ->
  is_not_None (critic_network a) = false ->
  exists (s : Specification) (self' : object),
    fst (run (specification a) self) = inr s /\
    attributes self' = dict_set (attributes self) "spec" (spec_of a) /\
    run (after_guard parent a) self =
    if existsb (has_key (parent_keywords a s)) (keys (kwargs a)) then
      (inl (TypeError "got multiple values for keyword argument"), self')
    else run (parent (parent_keywords a s ++ kwargs a)%list) self'.
Proof.
  intros He Hc.
  set (self0 := {| attributes := attributes self;
                   executed := (executed self ++ [156; 160])%list |}).
  destruct (specification_returns a self0) as (s & lines & Hrun).
  exists s.
  exists {| attributes := dict_set (attributes self) "spec" (spec_of a);
            executed := ((executed self0 ++ lines) ++ [207])%list |}.
  split; [| split; [reflexivity |]].
  - rewrite (specification_result a self self0), Hrun. reflexivity.
  - unfold after_guard. rewrite run_bind, run_deprecation_checks, He, Hc.
    cbv iota. fold self0. rewrite run_bind, Hrun. cbv iota.
    unfold parent_call. rewrite run_at_line. cbn [attributes executed].
    destruct (existsb (has_key (parent_keywords a s)) (keys (kwargs a)));
      reflexivity.
Qed.

(** In a bound call, a keyword of [**kwargs] repeats one written in the
    parent call exactly when the caller passed one of the computed
    keywords: the other names of the parent call are parameters of
    [__init__] and never reach [**kwargs]. *)
Lemma repeated_keyword_iff (states actions memory batch_size : value)
    (keywords : items_t) (s : Specification) :
  existsb (has_key keywords) required_parameters = false ->
  let a := parameters_of states actions memory batch_size keywords in
  existsb (has_key (parent_keywords a s)) (keys (kwargs a)) =
  existsb (has_key keywords) computed_keywords.
Proof.
  intros Hreq a. cbn in Hreq.
  repeat (apply Bool.orb_false_iff in Hreq as [? Hreq]).
  apply Bool.eq_true_iff_eq. rewrite !existsb_exists. split.
  - intros (k & Hin & Hk).
    apply in_map_iff in Hin as ([k' v] & Hfst & Hin). cbn in Hfst. subst k'.
    apply filter_In in Hin as (Hin & Hp). cbn [fst] in Hp.
    apply has_key_In in Hin.
    unfold has_key in Hk. rewrite parent_keywords_names in Hk.
    apply existsb_exists in Hk as (n & Hn & Hkn).
    apply String.eqb_eq in Hkn. subst n. cbn in Hn.
    repeat (destruct Hn as [<- | Hn]);
      first [ contradiction Hn
            | discriminate Hp
            | congruence
            | (eexists; split; [| exact Hin]; cbn; tauto) ].
  - intros (n & Hn & Hkn).
    apply has_key_In_inv in Hkn as (v & Hin).
    exists n. cbn in Hn. split.
    + apply in_map_iff. exists (n, v). split; [reflexivity |].
      apply filter_In. split; [exact Hin |]. cbn [fst].
      repeat (destruct Hn as [<- | Hn]); try contradiction Hn; reflexivity.
    + unfold has_key. rewrite parent_keywords_names.
      repeat (destruct Hn as [<- | Hn]); try contradiction Hn; reflexivity.
Qed.

(** X2.  Without the guard, a call with no deprecated argument and none of
    the computed keywords among its extra keywords runs the mapping, stores
    [self.spec], and then behaves as the parent constructor called with the
    keywords of lines 208-218 followed by the extra keywords. *)
Theorem bound_call_reaches_parent (parent : items_t -> M unit)
    (states actions memory batch_size : value) (keywords : items_t)
    (a : Args) (self : object) :
  bind_parameters states actions memory batch_size keywords = inr a ->
  is_not_None (estimate_terminal a) = false ->
  is_not_None (critic_network a) = false ->
  existsb (has_key keywords) computed_keywords = false ->
  exists (s : Specification) (self' : object),
    fst (run (specification a) self) = inr s /\
    attributes self' = dict_set (attributes self) "spec" (spec_of a) /\
    run (after_guard parent a) self =
    run (parent (parent_keywords a s ++ kwargs a)%list) self'.
Proof.
  intros Hbind He Hc Hk.
  destruct (run_after_guard parent a self He Hc) as (s & self' & Hs & Ha & Hr).
  exists s, self'. split; [exact Hs | split; [exact Ha |]].
  rewrite Hr. unfold bind_parameters in Hbind.
  destruct (existsb (has_key keywords) ("self" :: required_parameters))
    eqn:Hreq; [discriminate Hbind |].
  cbn [existsb] in Hreq. apply Bool.orb_false_iff in Hreq as [_ Hreq].
  injection Hbind as <-.
  rewrite (repeated_keyword_iff _ _ _ _ _ s Hreq), Hk. reflexivity.
Qed.

(** Witness of X2: one extra keyword, [seed=7]. *)
Lemma bound_call_reaches_parent_witness :
  let keywords := [("seed", VInt 7)] in
  let a := parameters_of (VStr "states") (VStr "actions") (VInt 1000)
             (VInt 32) keywords in
  let self := {| attributes := []; executed := [] |} in
  let parent := fun received : items_t => setattr "parent" (VDict received) in
  (bind_parameters (VStr "states") (VStr "actions") (VInt 1000) (VInt 32)
     keywords = inr a /\
   is_not_None (estimate_terminal a) = false /\
   is_not_None (critic_network a) = false /\
   existsb (has_key keywords) computed_keywords = false) /\
  exists (s : Specification) (self' : object),
    fst (run (specification a) self) = inr s /\
    attributes self' = dict_set (attributes self) "spec" (spec_of a) /\
    run (after_guard parent a) self =
    run (parent (parent_keywords a s ++ kwargs a)%list) self'.
Proof.
  intros keywords a self parent.
  split; [repeat split |].
  exact (bound_call_reaches_parent parent (VStr "states") (VStr "actions")
           (VInt 1000) (VInt 32) keywords a self
           eq_refl eq_refl eq_refl eq_refl).
Defined.

(** X3.  Without the guard, a call that passes one of the computed
    keywords ([policy], [update], [optimizer], ...) as an extra keyword fails
    with a [TypeError] at the parent call: the name is written there once
    already.  The parent constructor is not entered, and [self.spec] has
    been stored by then. *)
Theorem computed_keyword_rejected (parent : items_t -> M unit)
    (states actions memory batch_size : value) (keywords : items_t)
    (a : Args) (self : object) :
  bind_parameters states actions memory batch_size keywords = inr a ->
  is_not_None (estimate_terminal a) = false ->
  is_not_None (critic_network a) = false ->
  existsb (has_key keywords) computed_keywords = true ->
  exists message : string,
    fst (run (after_guard parent a) self) = inl (TypeError message) /\
    attributes (snd (run (after_guard parent a) self)) =
      dict_set (attributes self) "spec" (spec_of a).
Proof.
  intros Hbind He Hc Hk.
  destruct (run_after_guard parent a self He Hc) as (s & self' & Hs & Ha & Hr).
  unfold bind_parameters in Hbind.
  destruct (existsb (has_key keywords) ("self" :: required_parameters))
    eqn:Hreq; [discriminate Hbind |].
  cbn [existsb] in Hreq. apply Bool.orb_false_iff in Hreq as [_ Hreq].
  injection Hbind as <-.
  rewrite (repeated_keyword_iff _ _ _ _ _ s Hreq), Hk in Hr.
  rewrite Hr. eexists. split; [reflexivity | exact Ha].
Qed.

(** Witness of X3: the caller passes [policy]. *)
Lemma computed_keyword_rejected_witness :
  let keywords := [("policy", VStr "custom")] in
  let a := parameters_of (VStr "states") (VStr "actions") (VInt 1000)
             (VInt 32) keywords in
  let self := {| attributes := []; executed := [] |} in
  let parent := fun received : items_t => setattr "parent" (VDict received) in
  (bind_parameters (VStr "states") (VStr "actions") (VInt 1000) (VInt 32)
     keywords = inr a /\
   is_not_None (estimate_terminal a) = false /\
   is_not_None (critic_network a) = false /\
   existsb (has_key keywords) computed_keywords = true) /\
  exists message : string,
    fst (run (after_guard parent a) self) = inl (TypeError message) /\
    attributes (snd (run (after_guard parent a) self)) =
      dict_set (attributes self) "spec" (spec_of a).
Proof.
  intros keywords a self parent.
  split; [repeat split |].
  exact (computed_keyword_rejected parent (VStr "states") (VStr "actions")
           (VInt 1000) (VInt 32) keywords a self
           eq_refl eq_refl eq_refl eq_refl).
Defined.

(** *** The mapping of lines 165-205, continued *)

(** The attributes after the mapping. *)
Lemma specification_attributes (a : Args) (self : object) :
  attributes (snd (run (specification a) self)) =
  dict_set (attributes self) "spec" (spec_of a).
Proof.
  destruct (specification_returns a self) as (s & lines & ->). reflexivity.
Qed.

(** X4.  The update specification always has 'unit' and 'batch_size'; it
    has a 'frequency' entry exactly when [update_frequency] differs from
    'batch_size', and a 'start' entry exactly when [start_updating] is not
    [None], each with the argument as passed; it has no other entry. *)
Theorem update_entries (a : Args) (self : object) :
  exists (s : Specification) (d : items_t),
    fst (run (specification a) self) = inr s /\
    update s = VDict d /\
    dict_get d "unit" = Some (VStr "timesteps") /\
    dict_get d "batch_size" = Some (batch_size a) /\
    dict_get d "frequency" =
      (if ne_str (update_frequency a) "batch_size"
       then Some (update_frequency a) else None) /\
    dict_get d "start" =
      (if is_not_None (start_updating a)
       then Some (start_updating a) else None) /\
    keys d =
      ([ "unit"; "batch_size" ]
       ++ (if ne_str (update_frequency a) "batch_size"
           then [ "frequency" ] else [])
       ++ (if is_not_None (start_updating a) then [ "start" ] else []))%list.
Proof.
  run_specification a; eexists; eexists;
    (split; [reflexivity |]); (split; [reflexivity |]); repeat split.
Qed.

(** X5.  [self.spec] has one entry for 'agent', with value 'dpg', and one
    for every parameter of the constructor that is not deprecated, in the
    order of the signature; the deprecated arguments and the extra keywords
    are not recorded. *)
Theorem spec_keys (a : Args) (self : object) :
  exists d : items_t,
    dict_get (attributes (snd (run (specification a) self))) "spec" =
      Some (VDict d) /\
    dict_get d "agent" = Some (VStr "dpg") /\
    keys d =
      ("agent" :: required_parameters
       ++ filter (fun n => negb (existsb (String.eqb n) deprecated_parameters))
                 optional_parameters)%list.
Proof.
  rewrite specification_attributes, dict_get_set_same.
  eexists. split; [reflexivity |]. split; reflexivity.
Qed.

(** X6.  In a bound call, the value passed for a parameter that is not
    deprecated can be read back from [self.spec] under the parameter's
    name, and so can the four required arguments. *)
Theorem spec_records_arguments
    (states actions memory batch_size : value) (keywords : items_t)
    (a : Args) (self : object) (name : string) (v : value) :
  bind_parameters states actions memory batch_size keywords = inr a ->
  existsb (String.eqb name) optional_parameters = true ->
  existsb (String.eqb name) deprecated_parameters = false ->
  dict_get keywords name = Some v ->
  exists spec : value,
    dict_get (attributes (snd (run (specification a) self))) "spec" =
      Some spec /\
    item spec name = Some v /\
    item spec "states" = Some states /\
    item spec "actions" = Some actions /\
    item spec "memory" = Some memory /\
    item spec "batch_size" = Some batch_size.
Proof.
  intros Hbind Hopt Hdep Hget.
  apply bind_parameters_inr in Hbind. subst a.
  rewrite specification_attributes, dict_get_set_same.
  eexists. split; [reflexivity |].
  split; [| repeat split].
  apply existsb_exists in Hopt as (n & Hn & Hname).
  apply String.eqb_eq in Hname. subst n. cbn in Hn.
  repeat (destruct Hn as [<- | Hn]); try contradiction Hn;
    try discriminate Hdep;
    cbn; unfold parameter; rewrite Hget; reflexivity.
Qed.

(** Witness of X6: [horizon=5]. *)
Lemma spec_records_arguments_witness :
  let keywords := [("horizon", VInt 5)] in
  let a := parameters_of (VStr "states") (VStr "actions") (VInt 1000)
             (VInt 32) keywords in
  let self := {| attributes := [("spec", VNone)]; executed := [] |} in
  (bind_parameters (VStr "states") (VStr "actions") (VInt 1000) (VInt 32)
     keywords = inr a /\
   existsb (String.eqb "horizon") optional_parameters = true /\
   existsb (String.eqb "horizon") deprecated_parameters = false /\
   dict_get keywords "horizon" = Some (VInt 5)) /\
  exists spec : value,
    dict_get (attributes (snd (run (specification a) self))) "spec" =
      Some spec /\
    item spec "horizon" = Some (VInt 5) /\
    item spec "states" = Some (VStr "states") /\
    item spec "actions" = Some (VStr "actions") /\
    item spec "memory" = Some (VInt 1000) /\
    item spec "batch_size" = Some (VInt 32).
Proof.
  intros keywords a self.
  split; [repeat split |].
  exact (spec_records_arguments (VStr "states") (VStr "actions") (VInt 1000)
           (VInt 32) keywords a self "horizon" (VInt 5)
           eq_refl eq_refl eq_refl eq_refl).
Defined.

(** X7.  The mapping assigns [self.spec] and no other attribute: every
    other attribute of the object keeps its value, or stays absent. *)
Theorem specification_frame (a : Args) (self : object) (name : string) :
  name <> "spec" ->
  dict_get (attributes (snd (run (specification a) self))) name =
  dict_get (attributes self) name.
Proof.
  intros Hne. rewrite specification_attributes.
  apply dict_get_set_other. exact Hne.
Qed.

(** Witness of X7: an object that has a [name] already. *)
Lemma specification_frame_witness :
  let a := parameters_of (VStr "states") (VStr "actions") (VInt 1000)
             (VInt 32) [] in
  let self := {| attributes := [("name", VStr "agent")]; executed := [] |} in
  "name" <> "spec" /\
  dict_get (attributes (snd (run (specification a) self))) "name" =
  Some (VStr "agent").
Proof.
  intros a self.
  assert (Hne : "name" <> "spec") by discriminate.
  split; [exact Hne |].
  exact (specification_frame a self "name" Hne).
Defined.

(** *** The keywords of the parent call (lines 207-219) *)

(** X8.  In a bound call, an extra keyword whose name is neither a
    parameter of the constructor nor a computed keyword reaches the parent
    call with the value the caller gave it, and a name the caller did not
    pass is absent there. *)
Theorem extra_keyword_forwarded
    (states actions memory batch_size : value) (keywords : items_t)
    (a : Args) (s : Specification) (name : string) :
  bind_parameters states actions memory batch_size keywords = inr a ->
  existsb (String.eqb name)
    (required_parameters ++ optional_parameters ++ computed_keywords) = false ->
  dict_get (parent_keywords a s ++ kwargs a)%list name =
  dict_get keywords name.
Proof.
  intros Hbind Hname.
  apply bind_parameters_inr in Hbind. subst a.
  rewrite dict_get_app.
  assert (Hnamed : dict_get
            (parent_keywords
               (parameters_of states actions memory batch_size keywords) s)
            name = None).
  { apply has_key_false. unfold has_key. rewrite parent_keywords_names.
    match goal with |- ?b = false => destruct b eqn:E end; [| reflexivity].
    apply existsb_exists in E as (n & Hn & Hnn).
    assert (Hall : existsb (String.eqb name)
              (required_parameters ++ optional_parameters ++ computed_keywords)
            = true).
    { apply existsb_exists. exists n. split; [| exact Hnn].
      cbn in Hn. repeat (destruct Hn as [<- | Hn]); try contradiction Hn;
        cbn; tauto. }
    congruence. }
  rewrite Hnamed.
  rewrite !existsb_app in Hname.
  apply Bool.orb_false_iff in Hname as [_ Hname].
  apply Bool.orb_false_iff in Hname as [Hopt _].
  cbn [kwargs parameters_of].
  rewrite (dict_get_filter
             (fun n => negb (existsb (String.eqb n) optional_parameters))).
  rewrite Hopt. reflexivity.
Qed.

(** Witness of X8: [seed=7] next to [horizon=5]. *)
Lemma extra_keyword_forwarded_witness :
  let keywords := [("horizon", VInt 5); ("seed", VInt 7)] in
  let a := parameters_of (VStr "states") (VStr "actions") (VInt 1000)
             (VInt 32) keywords in
  let s := {| policy := VNone; memory_spec := VNone; update := VNone;
              optimizer := VNone; objective := VNone;
              reward_estimation := VNone; baseline := VNone;
              baseline_optimizer := VNone; baseline_objective := VNone |} in
  (bind_parameters (VStr "states") (VStr "actions") (VInt 1000) (VInt 32)
     keywords = inr a /\
   existsb (String.eqb "seed")
     (required_parameters ++ optional_parameters ++ computed_keywords) = false) /\
  dict_get (parent_keywords a s ++ kwargs a)%list "seed" = Some (VInt 7).
Proof.
  intros keywords a s.
  split; [split; reflexivity |].
  exact (extra_keyword_forwarded (VStr "states") (VStr "actions") (VInt 1000)
           (VInt 32) keywords a s "seed" eq_refl eq_refl).
Defined.

(** X9.  Line 186 rebinds [memory] after [self.spec] is stored: [self.spec]
    keeps the capacity the caller passed, and the keyword [memory] written
    in the parent call carries the replay memory specification with that
    capacity. *)
Theorem memory_rebound (a : Args) (self : object) :
  exists (s : Specification) (spec : value),
    fst (run (specification a) self) = inr s /\
    dict_get (attributes (snd (run (specification a) self))) "spec" =
      Some spec /\
    item spec "memory" = Some (memory a) /\
    dict_get (parent_keywords a s) "memory" =
      Some (VDict [ ("type", VStr "replay"); ("capacity", memory a) ]).
Proof.
  rewrite specification_attributes, dict_get_set_same.
  run_specification a; eexists; eexists;
    (split; [reflexivity |]); (split; [reflexivity |]);
    (split; [reflexivity |]); reflexivity.
Qed.

End DPGBehaviour.

(* ===================================================================== *)
(** ** Further behaviour of the StateValue module *)
(* ===================================================================== *)

Module StateValueBehaviour.
Import StateValue.

Section Dispatch.

Variable Module_input_signature : object -> string -> exception + signature_t.
Variable Module_output_signature : object -> string -> exception + signature_t.

(** The input signature of [state_value], by the specifications the object
    has: the first one missing, in the order states, internals,
    auxiliaries, decides the error. *)
Lemma input_signature_state_value (self : object) :
  input_signature Module_input_signature self "state_value" =
  match states_spec self, internals_spec self, auxiliaries_spec self with
  | None, _, _ => inl (AttributeError "states_spec.signature")
  | Some _, None, _ => inl (AttributeError "internals_spec.signature")
  | Some _, Some _, None => inl (AttributeError "auxiliaries_spec.signature")
  | Some states, Some internals, Some auxiliaries =>
      inr (SignatureDict
             [ ("states", TensorsSpec_signature states true);
               ("horizons",
                TensorSignature
                  {| sig_type := "int"; sig_shape := [2%Z]; batched := true |});
               ("internals", TensorsSpec_signature internals true);
               ("auxiliaries", TensorsSpec_signature auxiliaries true) ])
  end.
Proof.
  unfold input_signature.
  destruct (states_spec self), (internals_spec self), (auxiliaries_spec self);
    reflexivity.
Qed.

(** X10.  The input signature of [state_value] is built only for an
    object that has its states, internals and auxiliaries specifications;
    [actions_spec] is not needed. *)
Theorem input_signature_requires_specs (self : object) (sig : signature_t) :
  input_signature Module_input_signature self "state_value" = inr sig ->
  states_spec self <> None /\
  internals_spec self <> None /\
  auxiliaries_spec self <> None.
Proof.
  rewrite input_signature_state_value.
  destruct (states_spec self), (internals_spec self), (auxiliaries_spec self);
    intros H; try discriminate H.
  repeat split; discriminate.
Qed.

(** X11.  When specifications are missing, the error names the first one
    in the order the signature is written: an object with states but no
    internals fails on the internals, whether or not it has auxiliaries. *)
Theorem input_signature_first_missing (self : object) (states : TensorsSpec) :
  states_spec self = Some states ->
  internals_spec self = None ->
  input_signature Module_input_signature self "state_value" =
  inl (AttributeError "internals_spec.signature").
Proof.
  intros Hs Hi. rewrite input_signature_state_value, Hs, Hi. reflexivity.
Qed.

(** X12.  Every function name other than 'past_horizon' and 'state_value'
    is answered by the parent class, for the input and for the output
    signature. *)
Theorem other_functions_delegated (self : object) (function : string) :
  function <> "past_horizon" ->
  function <> "state_value" ->
  input_signature Module_input_signature self function =
    Module_input_signature self function /\
  output_signature Module_output_signature self function =
    Module_output_signature self function.
Proof.
  intros Hp Hs. unfold input_signature, output_signature.
  apply String.eqb_neq in Hp. apply String.eqb_neq in Hs.
  rewrite Hp, Hs. split; reflexivity.
Qed.

(** X14.  Whenever the input signature of [state_value] is built, its
    entries are named after the keyword parameters of [state_value], in
    their order, and their number is the [num_args] of the decorator. *)
Theorem input_signature_matches_parameters (self : object)
    (items : list (string * signature_t)) :
  input_signature Module_input_signature self "state_value" =
    inr (SignatureDict items) ->
  map fst items = state_value_parameters /\
  length items = state_value_num_args.
Proof.
  rewrite input_signature_state_value.
  destruct (states_spec self), (internals_spec self), (auxiliaries_spec self);
    intros H; try discriminate H.
  injection H as <-. split; reflexivity.
Qed.

End Dispatch.

(** X13.  For 'past_horizon' and 'state_value' the parent class is never
    asked, the output signature reads nothing from the object, and the
    input signature reads only the states, internals and auxiliaries
    specifications: two objects that agree on these three have the same
    signatures, whatever their [actions_spec] and their parent class. *)
Theorem own_signatures_independent
    (parent_in parent_in' parent_out parent_out'
       : object -> string -> exception + signature_t)
    (self self' : object) (function : string) :
  function = "past_horizon" \/ function = "state_value" ->
  states_spec self = states_spec self' ->
  internals_spec self = internals_spec self' ->
  auxiliaries_spec self = auxiliaries_spec self' ->
  input_signature parent_in self function =
    input_signature parent_in' self' function /\
  output_signature parent_out self function =
    output_signature parent_out' self' function.
Proof.
  intros [-> | ->] Hs Hi Ha.
  - split; reflexivity.
  - rewrite !input_signature_state_value, Hs, Hi, Ha. split; reflexivity.
Qed.

(** *** Construction, then the signatures *)

Section Constructed.

Variable Module__init__ :
  object -> value -> value -> value -> exception + object.
Variable Module_input_signature : object -> string -> exception + signature_t.

(** X16.  An object constructed with the default [states_spec=None] has no
    input signature for [state_value]: asking for it fails on the states
    specification, whatever the parent constructor stored. *)
Theorem default_construction_has_no_signature (self self' : object)
    (device l2_regularization name : value)
    (auxiliaries actions : option TensorsSpec) :
  __init__ Module__init__ self device l2_regularization name
    None auxiliaries actions = inr self' ->
  input_signature Module_input_signature self' "state_value" =
  inl (AttributeError "states_spec.signature").
Proof.
  unfold __init__.
  destruct (Module__init__ self device l2_regularization name) as [e | self1];
    cbn; intros H; [discriminate H |].
  injection H as <-. reflexivity.
Qed.

End Constructed.

(** Witness of X10: an object with the three specifications and no
    [actions_spec]. *)
Lemma input_signature_requires_specs_witness :
  let specs := Tensors [("state", Tensor {| type := "float"; shape := [] |})] in
  let self := {| states_spec := Some specs; auxiliaries_spec := Some specs;
                 actions_spec := None; internals_spec := Some (Tensors []) |} in
  let parent := fun (_ : object) (_ : string) =>
    (inr (SignatureDict []) : exception + signature_t) in
  let built :=
    SignatureDict
      [ ("states", TensorsSpec_signature specs true);
        ("horizons",
         TensorSignature
           {| sig_type := "int"; sig_shape := [2%Z]; batched := true |});
        ("internals", SignatureDict []);
        ("auxiliaries", TensorsSpec_signature specs true) ] in
  input_signature parent self "state_value" = inr built /\
  states_spec self <> None /\
  internals_spec self <> None /\
  auxiliaries_spec self <> None.
Proof.
  intros specs self parent built.
  split; [reflexivity |].
  exact (input_signature_requires_specs parent self built eq_refl).
Defined.

(** Witness of X11: states only. *)
Lemma input_signature_first_missing_witness :
  let states :=
    Tensors [("state", Tensor {| type := "float"; shape := [4%Z] |})] in
  let self := {| states_spec := Some states; auxiliaries_spec := None;
                 actions_spec := None; internals_spec := None |} in
  let parent := fun (_ : object) (_ : string) =>
    (inr (SignatureDict []) : exception + signature_t) in
  (states_spec self = Some states /\ internals_spec self = None) /\
  input_signature parent self "state_value" =
  inl (AttributeError "internals_spec.signature").
Proof.
  intros states self parent.
  split; [split; reflexivity |].
  exact (input_signature_first_missing parent self states eq_refl eq_refl).
Defined.

(** Witness of X12: the function [reset]. *)
Lemma other_functions_delegated_witness :
  let self := {| states_spec := None; auxiliaries_spec := None;
                 actions_spec := None; internals_spec := None |} in
  let parent := fun (_ : object) (_ : string) =>
    (inr (SignatureDict []) : exception + signature_t) in
  ("reset" <> "past_horizon" /\ "reset" <> "state_value") /\
  input_signature parent self "reset" = inr (SignatureDict []) /\
  output_signature parent self "reset" = inr (SignatureDict []).
Proof.
  intros self parent.
  assert (Hp : "reset" <> "past_horizon") by discriminate.
  assert (Hs : "reset" <> "state_value") by discriminate.
  split; [split; assumption |].
  exact (other_functions_delegated parent parent self "reset" Hp Hs).
Defined.

(** Witness of X13: two objects that differ in [actions_spec], and two
    parent classes. *)
Lemma own_signatures_independent_witness :
  let specs := Tensors [("state", Tensor {| type := "float"; shape := [] |})] in
  let self := {| states_spec := Some specs; auxiliaries_spec := Some specs;
                 actions_spec := None; internals_spec := Some specs |} in
  let self' := {| states_spec := Some specs; auxiliaries_spec := Some specs;
                  actions_spec := Some specs; internals_spec := Some specs |} in
  let parent := fun (_ : object) (_ : string) =>
    (inr (SignatureDict []) : exception + signature_t) in
  let parent' := fun (_ : object) (_ : string) =>
    (inl (OtherException "NotImplementedError") : exception + signature_t) in
  input_signature parent self "state_value" =
    input_signature parent' self' "state_value" /\
  output_signature parent self "state_value" =
    output_signature parent' self' "state_value".
Proof.
  intros specs self self' parent parent'.
  exact (own_signatures_independent parent parent' parent parent' self self'
           "state_value" (or_intror eq_refl) eq_refl eq_refl eq_refl).
Defined.

(** Witness of X14: an object with the three specifications. *)
Lemma input_signature_matches_parameters_witness :
  let specs := Tensors [("state", Tensor {| type := "float"; shape := [] |})] in
  let self := {| states_spec := Some specs; auxiliaries_spec := Some specs;
                 actions_spec := None; internals_spec := Some (Tensors []) |} in
  let parent := fun (_ : object) (_ : string) =>
    (inr (SignatureDict []) : exception + signature_t) in
  let items :=
    [ ("states", TensorsSpec_signature specs true);
      ("horizons",
       TensorSignature
         {| sig_type := "int"; sig_shape := [2%Z]; batched := true |});
      ("internals", SignatureDict []);
      ("auxiliaries", TensorsSpec_signature specs true) ] in
  input_signature parent self "state_value" = inr (SignatureDict items) /\
  map fst items = [ "states"; "horizons"; "internals"; "auxiliaries" ] /\
  length items = 4.
Proof.
  intros specs self parent items.
  split; [reflexivity |].
  exact (input_signature_matches_parameters parent self items eq_refl).
Defined.

(** Witness of X16: construction with every default. *)
Lemma default_construction_has_no_signature_witness :
  let blank := {| states_spec := None; auxiliaries_spec := None;
                  actions_spec := None; internals_spec := None |} in
  let parent_init := fun (self : object) (_ _ _ : value) =>
    (inr self : exception + object) in
  let parent := fun (_ : object) (_ : string) =>
    (inr (SignatureDict []) : exception + signature_t) in
  __init__ parent_init blank VNone VNone VNone None None None = inr blank /\
  input_signature parent blank "state_value" =
  inl (AttributeError "states_spec.signature").
Proof.
  intros blank parent_init parent.
  split; [reflexivity |].
  exact (default_construction_has_no_signature parent_init parent blank blank
           VNone VNone VNone None None eq_refl).
Defined.

End StateValueBehaviour.
